(** * FLE CRUD on mongod: session yielding, executor lifecycle, reply metadata

    A shallow embedding of [mongo/db/fle_crud_mongod.cpp]:
    - [setMongosFieldsInReply], the reply metadata augmenter;
    - [FLEMongoDResourceYielder], the session-aware [ResourceYielder];
    - [startFLECrud] / [stopFLECrud], the lifecycle of the [FLECrud] pool;
    - [processFLEInsert], the entry point for encrypted inserts.

    The code talks to collaborators that live in other translation units
    (session catalog, transaction participant, replication coordinator,
    thread pool, [processInsert]).  They are kept abstract: a type class
    gives their signatures, and every statement below is proved for every
    instance.  [Sim] is one small executable instance used to run the
    model on concrete inputs. *)

From Stdlib Require Import ZArith List String Bool Lia.
From ExtLib Require Import Structures.Monad Structures.MonadExc.
Import ListNotations.
Import MonadNotation.

Local Open Scope Z_scope.
Local Open Scope string_scope.
Local Open Scope monad_scope.

Set Implicit Arguments.

(** ** Data *)

(** [ErrorCodes::Error] is an integer code; [uassert] with a literal number
    throws that number as the code. *)
Definition ErrorCodes := Z.

(** [ErrorCodes::NoSuchTransaction] (its value comes from the error code
    table; only its identity matters). *)
Definition NoSuchTransaction : ErrorCodes := 251.

(** A thrown [DBException]: every [ExceptionFor<c>] is a [DBException]
    whose [code()] is [c]. *)
Record DBException := { code : ErrorCodes; reason : string }.

(** [repl::ReplicationCoordinator::Mode]. *)
Inductive Mode := modeNone | modeReplSet.

Definition Mode_eqb (a b : Mode) : bool :=
  match a, b with
  | modeNone, modeNone | modeReplSet, modeReplSet => true
  | _, _ => false
  end.

(** [repl::OpTime] is a (timestamp, term) pair. *)
Record OpTime := { op_timestamp : Z; op_term : Z }.

(** [OID], kept as its integer value. *)
Definition OID := Z.

(** [write_ops::WriteCommandReplyBase]: the two optional replication fields
    and, standing for the rest of the reply, the count [n]. *)
Record WriteCommandReplyBase := {
  reply_n : Z;
  reply_opTime : option OpTime;
  reply_electionId : option OID
}.

Definition setOpTime (t : OpTime) (r : WriteCommandReplyBase) :=
  {| reply_n := reply_n r; reply_opTime := Some t;
     reply_electionId := reply_electionId r |}.

Definition setElectionId (e : OID) (r : WriteCommandReplyBase) :=
  {| reply_n := reply_n r; reply_opTime := reply_opTime r;
     reply_electionId := Some e |}.

(** [std::optional::has_value]. *)
Definition has_value {A} (o : option A) : bool :=
  match o with Some _ => true | None => false end.

Record InsertCommandReply := { getWriteCommandReplyBase : WriteCommandReplyBase }.

(** The insert request is passed through to [processInsert] untouched. *)
Record InsertCommandRequest := { request_documents : list Z }.

Inductive FLEBatchResult := kProcessed | kNotProcessed.

(** A checked-out [Session] and a [TransactionParticipant::Participant]
    are handles; a null pointer / empty participant is [None]. *)
Definition Session := nat.
Definition Participant := nat.

(** [ThreadPool::Options], restricted to the fields the code assigns. *)
Inductive MaxThreads := kUnlimited | kAtMost (n : nat).
Record ThreadPoolOptions := { poolName : string; maxThreads : MaxThreads }.

(** A [ThreadPool] object, identified by the options it was built with. *)
Record ThreadPool := { pool_options : ThreadPoolOptions }.

(** ** The yielder object *)

Record FLEMongoDResourceYielder := { _yielded : bool }.

(** [bool _yielded = false;] *)
Definition new_FLEMongoDResourceYielder : FLEMongoDResourceYielder :=
  {| _yielded := false |}.

(** [txn_api::TransactionWithRetries], as constructed here: the executor
    it is given and the yielder it owns. *)
Record TransactionWithRetries := {
  txn_executor : option ThreadPool;
  txn_yielder : FLEMongoDResourceYielder
}.

(** ** Observable calls

    Every call that leaves this translation unit, and every write to a
    reply object, is recorded in program order. *)
Inductive Event :=
| EvStash (p : Participant)
| EvCheckIn
| EvCheckOut
| EvUnstash (p : Participant) (cmdName : string)
| EvGetReplicationMode
| EvGetLastOp
| EvGetElectionId
| EvSetOpTime
| EvSetElectionId
| EvProcessInsert
| EvAssignReply
| EvPoolStartup (p : ThreadPool)
| EvPoolShutdown (p : ThreadPool)
| EvPoolJoin (p : ThreadPool).

(** ** Results of calls: normal return or a thrown exception *)
Inductive Outcome (A : Type) :=
| Returned (a : A)
| Threw (e : DBException).
Arguments Threw {A} e.

(** ** Collaborators

    [W] is whatever the operation context and the service context give
    access to.  Calls that may throw return an [Outcome]; in both cases
    they may have changed [W]. *)
Class Collaborators (W : Type) := {
  (** [OperationContextSession::get(opCtx)] *)
  OperationContextSession_get : W -> option Session;
  (** [TransactionParticipant::get(opCtx)], tested through [operator bool] *)
  TransactionParticipant_get : W -> option Participant;
  (** [txnParticipant.stashTransactionResources(opCtx)] *)
  stashTransactionResources : Participant -> W -> Outcome unit * W;
  (** [MongoDOperationContextSession::checkIn(opCtx)] *)
  checkIn : W -> Outcome unit * W;
  (** [MongoDOperationContextSession::checkOut(opCtx)] *)
  checkOut : W -> Outcome unit * W;
  (** [txnParticipant.unstashTransactionResources(opCtx, cmdName)] *)
  unstashTransactionResources : Participant -> string -> W -> Outcome unit * W;
  (** [replCoord->getReplicationMode()] *)
  getReplicationMode : W -> Mode;
  (** [repl::ReplClientInfo::forClient(opCtx->getClient()).getLastOp()] *)
  getLastOp : W -> OpTime;
  (** [replCoord->getElectionId()] *)
  getElectionId : W -> OID;
  (** [processInsert(opCtx, insertRequest, getTxn)] of [fle_crud.cpp] *)
  processInsert : InsertCommandRequest -> (unit -> TransactionWithRetries) ->
                  W -> Outcome (FLEBatchResult * InsertCommandReply) * W;
  (** [ThreadPool::startup], [ThreadPool::shutdown], [ThreadPool::join] *)
  ThreadPool_startup : ThreadPool -> W -> W;
  ThreadPool_shutdown : ThreadPool -> W -> W;
  ThreadPool_join : ThreadPool -> W -> W
}.

(** ** Program state and the execution monad *)

Record State (W : Type) := {
  world : W;
  (** the file-level [std::shared_ptr<ThreadPool> _fleCrudthreadPool] *)
  _fleCrudthreadPool : option ThreadPool;
  trace : list Event
}.

(** State survives a throw: what was done before it stays done. *)
Definition Exec (W A : Type) : Type := State W -> Outcome A * State W.

Section Monad.
Context {W : Type}.

Definition Exec_ret {A} (a : A) : Exec W A := fun st => (Returned a, st).

Definition Exec_bind {A B} (c : Exec W A) (k : A -> Exec W B) : Exec W B :=
  fun st =>
    match c st with
    | (Returned a, st') => k a st'
    | (Threw e, st') => (Threw e, st')
    end.

Definition Exec_raise {A} (e : DBException) : Exec W A :=
  fun st => (Threw e, st).

Definition Exec_catch {A} (c : Exec W A) (h : DBException -> Exec W A) : Exec W A :=
  fun st =>
    match c st with
    | (Returned a, st') => (Returned a, st')
    | (Threw e, st') => h e st'
    end.

#[export] Instance Monad_Exec : Monad (Exec W) :=
  {| ret := @Exec_ret; bind := @Exec_bind |}.

#[export] Instance MonadExc_Exec : MonadExc DBException (Exec W) :=
  {| raise := @Exec_raise; catch := @Exec_catch |}.

(** Record an event. *)
Definition emit (ev : Event) : Exec W unit :=
  fun st => (Returned tt,
             {| world := world st;
                _fleCrudthreadPool := _fleCrudthreadPool st;
                trace := trace st ++ [ev] |}).

(** Read something off the collaborators without changing them. *)
Definition query {A} (f : W -> A) : Exec W A :=
  fun st => (Returned (f (world st)), st).

(** Run a collaborator call on the world. *)
Definition extern {A} (f : W -> Outcome A * W) : Exec W A :=
  fun st =>
    let (r, w') := f (world st) in
    (r, {| world := w';
           _fleCrudthreadPool := _fleCrudthreadPool st;
           trace := trace st |}).

(** A recorded call: the event is logged when the call is made. *)
Definition call {A} (ev : Event) (f : W -> Outcome A * W) : Exec W A :=
  emit ev ;; extern f.

(** A recorded call that returns nothing and does not throw. *)
Definition call_void (ev : Event) (f : W -> W) : Exec W unit :=
  call ev (fun w => (Returned tt, f w)).

(** A recorded read. *)
Definition read {A} (ev : Event) (f : W -> A) : Exec W A :=
  emit ev ;; query f.

Definition get_fleCrudthreadPool : Exec W (option ThreadPool) :=
  fun st => (Returned (_fleCrudthreadPool st), st).

Definition set_fleCrudthreadPool (p : option ThreadPool) : Exec W unit :=
  fun st => (Returned tt,
             {| world := world st; _fleCrudthreadPool := p; trace := trace st |}).

(** [uassert(msgid, msg, cond)] *)
Definition uassert (msgid : Z) (msg : string) (cond : bool) : Exec W unit :=
  if cond then ret tt else raise {| code := msgid; reason := msg |}.

(** [try { body } catch (ExceptionFor<c>&) { }]: only an exception whose
    code is [c] is handled, with an empty handler; any other one keeps
    unwinding. *)
Definition try_catch_ExceptionFor (c : ErrorCodes) (body : Exec W unit) : Exec W unit :=
  catch body (fun e => if Z.eqb (code e) c then ret tt else raise e).
End Monad.

(** ** The code *)

Section Code.
Context {W : Type} {C : Collaborators W}.

(** [FLEMongoDResourceYielder::yield] *)
Definition yield (this : FLEMongoDResourceYielder) : Exec W FLEMongoDResourceYielder :=
  session <- query OperationContextSession_get ;;
  match session with
  | Some _ =>
      txnParticipant <- query TransactionParticipant_get ;;
      match txnParticipant with
      | Some p => call (EvStash p) (stashTransactionResources p)
      | None => ret tt
      end ;;
      call EvCheckIn checkIn
  | None => ret tt
  end ;;
  ret {| _yielded := has_value session |}.

(** [FLEMongoDResourceYielder::unyield]; the object is not modified. *)
Definition unyield (this : FLEMongoDResourceYielder) : Exec W unit :=
  if _yielded this then
    call EvCheckOut checkOut ;;
    txnParticipant <- query TransactionParticipant_get ;;
    match txnParticipant with
    | Some p =>
        try_catch_ExceptionFor NoSuchTransaction
          (call (EvUnstash p "aggregate") (unstashTransactionResources p "aggregate"))
    | None => ret tt
    end
  else ret tt.

(** [setMongosFieldsInReply]; the reply is updated through the pointer,
    here it is returned. *)
Definition setMongosFieldsInReply (replyBase : WriteCommandReplyBase)
  : Exec W WriteCommandReplyBase :=
  if has_value (reply_opTime replyBase) && has_value (reply_electionId replyBase)
  then ret replyBase
  else
    replMode <- read EvGetReplicationMode getReplicationMode ;;
    if negb (Mode_eqb replMode modeNone) then
      lastOp <- read EvGetLastOp getLastOp ;;
      emit EvSetOpTime ;;
      let replyBase := setOpTime lastOp replyBase in
      electionId <- read EvGetElectionId getElectionId ;;
      emit EvSetElectionId ;;
      ret (setElectionId electionId replyBase)
    else ret replyBase.

(** [getThreadPoolOptions] *)
Definition getThreadPoolOptions : ThreadPoolOptions :=
  {| poolName := "FLECrud"; maxThreads := kUnlimited |}.

(** [getTransactionWithRetriesForMongoD]: [pool] is the value of
    [_fleCrudthreadPool] it reads; the yielder is freshly made. *)
Definition getTransactionWithRetriesForMongoD (pool : option ThreadPool) (opCtx : unit)
  : TransactionWithRetries :=
  {| txn_executor := pool; txn_yielder := new_FLEMongoDResourceYielder |}.

(** [startFLECrud] *)
Definition startFLECrud : Exec W unit :=
  replMode <- read EvGetReplicationMode getReplicationMode ;;
  if Mode_eqb replMode modeNone then ret tt
  else
    let pool := {| pool_options := getThreadPoolOptions |} in
    set_fleCrudthreadPool (Some pool) ;;
    call_void (EvPoolStartup pool) (ThreadPool_startup pool).

(** [stopFLECrud] *)
Definition stopFLECrud : Exec W unit :=
  pool <- get_fleCrudthreadPool ;;
  match pool with
  | Some p => call_void (EvPoolShutdown p) (ThreadPool_shutdown p)
  | None => ret tt
  end.

(** [processFLEInsert]; [insertReply] is the caller's reply object, and
    its final content is returned next to the batch result. *)
Definition processFLEInsert (insertRequest : InsertCommandRequest)
  (insertReply : InsertCommandReply) : Exec W (FLEBatchResult * InsertCommandReply) :=
  replMode <- read EvGetReplicationMode getReplicationMode ;;
  uassert 6371602 "Encrypted index operations are only supported on replica sets"
          (Mode_eqb replMode modeReplSet) ;;
  pool <- get_fleCrudthreadPool ;;
  r <- call EvProcessInsert
         (processInsert insertRequest (getTransactionWithRetriesForMongoD pool)) ;;
  let (batchResult, insertReplyReturn) := r in
  match batchResult with
  | kNotProcessed => ret (kNotProcessed, insertReply)
  | kProcessed =>
      emit EvAssignReply ;;
      let insertReply := insertReplyReturn in
      base <- setMongosFieldsInReply (getWriteCommandReplyBase insertReply) ;;
      ret (kProcessed, {| getWriteCommandReplyBase := base |})
  end.

(** The augmenter applied to one reply once per element of [ws]; before
    each call the collaborators are in the state the list gives. *)
Fixpoint setMongosFieldsInReply_each (ws : list W) (replyBase : WriteCommandReplyBase)
  (st : State W) : WriteCommandReplyBase * State W :=
  match ws with
  | [] => (replyBase, st)
  | w :: ws' =>
      match setMongosFieldsInReply replyBase
              {| world := w; _fleCrudthreadPool := _fleCrudthreadPool st;
                 trace := trace st |} with
      | (Returned replyBase', st') => setMongosFieldsInReply_each ws' replyBase' st'
      | (Threw _, st') => (replyBase, st')
      end
  end.
End Code.

(** What the [uassert] of [processFLEInsert] throws. *)
Definition uassert_6371602 : DBException :=
  {| code := 6371602;
     reason := "Encrypted index operations are only supported on replica sets" |}.

(** Both optional fields of a reply are set. *)
Definition both_set (r : WriteCommandReplyBase) : bool :=
  has_value (reply_opTime r) && has_value (reply_electionId r).

(** Counting calls in a trace. *)
Definition is_setOpTime (ev : Event) : bool :=
  match ev with EvSetOpTime => true | _ => false end.

Definition is_setElectionId (ev : Event) : bool :=
  match ev with EvSetElectionId => true | _ => false end.

Definition is_replCoord_read (ev : Event) : bool :=
  match ev with
  | EvGetReplicationMode | EvGetLastOp | EvGetElectionId => true
  | _ => false
  end.

Definition count_events (f : Event -> bool) (evs : list Event) : nat :=
  List.length (filter f evs).

(** The state reached from [st] when the collaborators are left in [w']
    and the calls [evs] were made. *)
Definition after {W} (st : State W) (w' : W) (evs : list Event) : State W :=
  {| world := w';
     _fleCrudthreadPool := _fleCrudthreadPool st;
     trace := trace st ++ evs |}.

(** ** An executable instance of the collaborators *)

Module Sim.

(** The pool follows the [ThreadPool] interface: [shutdown] only signals
    (no new work is accepted), [join] waits until the workers are done. *)
Record World := {
  attached : option Session;      (* session checked out on the context *)
  checkedIn : option Session;     (* session this context gave back *)
  participant : option Participant;
  stashed : bool;                 (* participant resources are stashed *)
  unstashOutcome : Outcome unit;  (* what the next unstash does *)
  replMode : Mode;
  lastOp : OpTime;
  electionId : OID;
  insertOutcome : Outcome (FLEBatchResult * InsertCommandReply);
  poolRunning : bool;             (* the pool accepts work *)
  inFlight : nat                  (* tasks the pool has not finished *)
}.

Definition set_sessions (a c : option Session) (w : World) : World :=
  {| attached := a; checkedIn := c; participant := participant w;
     stashed := stashed w; unstashOutcome := unstashOutcome w;
     replMode := replMode w; lastOp := lastOp w; electionId := electionId w;
     insertOutcome := insertOutcome w; poolRunning := poolRunning w;
     inFlight := inFlight w |}.

Definition set_stashed (b : bool) (w : World) : World :=
  {| attached := attached w; checkedIn := checkedIn w; participant := participant w;
     stashed := b; unstashOutcome := unstashOutcome w;
     replMode := replMode w; lastOp := lastOp w; electionId := electionId w;
     insertOutcome := insertOutcome w; poolRunning := poolRunning w;
     inFlight := inFlight w |}.

Definition set_pool (running : bool) (n : nat) (w : World) : World :=
  {| attached := attached w; checkedIn := checkedIn w; participant := participant w;
     stashed := stashed w; unstashOutcome := unstashOutcome w;
     replMode := replMode w; lastOp := lastOp w; electionId := electionId w;
     insertOutcome := insertOutcome w; poolRunning := running;
     inFlight := n |}.

Definition unstash (w : World) : Outcome unit * World :=
  match unstashOutcome w with
  | Returned _ => (Returned tt, set_stashed false w)
  | Threw e => (Threw e, w)
  end.

#[global] Instance collaborators : Collaborators World := {|
  OperationContextSession_get := attached;
  TransactionParticipant_get := participant;
  stashTransactionResources := fun _ w => (Returned tt, set_stashed true w);
  checkIn := fun w => (Returned tt, set_sessions None (attached w) w);
  checkOut := fun w => (Returned tt, set_sessions (checkedIn w) None w);
  unstashTransactionResources := fun _ _ w => unstash w;
  getReplicationMode := replMode;
  getLastOp := lastOp;
  getElectionId := electionId;
  processInsert := fun _ _ w => (insertOutcome w, w);
  ThreadPool_startup := fun _ w => set_pool true (inFlight w) w;
  ThreadPool_shutdown := fun _ w => set_pool false (inFlight w) w;
  ThreadPool_join := fun _ w => set_pool false 0 w
|}.

(** A replica-set member holding session 7 with participant 3. *)
Definition member : World :=
  {| attached := Some 7%nat; checkedIn := None; participant := Some 3%nat;
     stashed := false; unstashOutcome := Returned tt;
     replMode := modeReplSet;
     lastOp := {| op_timestamp := 100; op_term := 2 |};
     electionId := 42;
     insertOutcome := Returned (kNotProcessed,
        {| getWriteCommandReplyBase :=
             {| reply_n := 0; reply_opTime := None; reply_electionId := None |} |});
     poolRunning := false; inFlight := 0 |}.

Definition with_participant (p : option Participant) (w : World) : World :=
  {| attached := attached w; checkedIn := checkedIn w; participant := p;
     stashed := stashed w; unstashOutcome := unstashOutcome w;
     replMode := replMode w; lastOp := lastOp w; electionId := electionId w;
     insertOutcome := insertOutcome w; poolRunning := poolRunning w;
     inFlight := inFlight w |}.

Definition with_unstash (o : Outcome unit) (w : World) : World :=
  {| attached := attached w; checkedIn := checkedIn w; participant := participant w;
     stashed := stashed w; unstashOutcome := o;
     replMode := replMode w; lastOp := lastOp w; electionId := electionId w;
     insertOutcome := insertOutcome w; poolRunning := poolRunning w;
     inFlight := inFlight w |}.

Definition with_mode (m : Mode) (w : World) : World :=
  {| attached := attached w; checkedIn := checkedIn w; participant := participant w;
     stashed := stashed w; unstashOutcome := unstashOutcome w;
     replMode := m; lastOp := lastOp w; electionId := electionId w;
     insertOutcome := insertOutcome w; poolRunning := poolRunning w;
     inFlight := inFlight w |}.

(** The same node with no session on the context. *)
Definition sessionless : World := set_sessions None None (with_participant None member).

(** A standalone node. *)
Definition standalone : World := with_mode modeNone sessionless.

(** Program start: no pool yet, nothing recorded. *)
Definition boot (w : World) : State World :=
  {| world := w; _fleCrudthreadPool := None; trace := [] |}.

(** The [FLECrud] pool object. *)
Definition pool : ThreadPool := {| pool_options := getThreadPoolOptions |}.

(** The member after [startFLECrud], with [n] tasks running on the pool. *)
Definition busy (n : nat) : State World :=
  {| world := set_pool true n member;
     _fleCrudthreadPool := Some pool;
     trace := [EvGetReplicationMode; EvPoolStartup pool] |}.

End Sim.

(** ** A scripted instance: every call that may throw does what the
    script says, and leaves the collaborators as they are *)

Module Script.

Record World := {
  session : option Session;
  participant : option Participant;
  onStash : Outcome unit;
  onCheckIn : Outcome unit;
  onCheckOut : Outcome unit;
  onUnstash : Outcome unit;
  replMode : Mode;
  lastOp : OpTime;
  electionId : OID;
  onInsert : Outcome (FLEBatchResult * InsertCommandReply)
}.

#[global] Instance collaborators : Collaborators World := {|
  OperationContextSession_get := session;
  TransactionParticipant_get := participant;
  stashTransactionResources := fun _ w => (onStash w, w);
  checkIn := fun w => (onCheckIn w, w);
  checkOut := fun w => (onCheckOut w, w);
  unstashTransactionResources := fun _ _ w => (onUnstash w, w);
  getReplicationMode := replMode;
  getLastOp := lastOp;
  getElectionId := electionId;
  processInsert := fun _ _ w => (onInsert w, w);
  ThreadPool_startup := fun _ w => w;
  ThreadPool_shutdown := fun _ w => w;
  ThreadPool_join := fun _ w => w
|}.

(** A replica-set member with session 7 and participant 3; the four
    session calls do [stash], [checkin], [checkout], [unstash], and
    [processInsert] does [insert]. *)
Definition member (stash checkin checkout unstash : Outcome unit)
  (insert : Outcome (FLEBatchResult * InsertCommandReply)) : World :=
  {| session := Some 7%nat; participant := Some 3%nat;
     onStash := stash; onCheckIn := checkin;
     onCheckOut := checkout; onUnstash := unstash;
     replMode := modeReplSet;
     lastOp := {| op_timestamp := 100; op_term := 2 |};
     electionId := 42;
     onInsert := insert |}.

Definition ok : Outcome unit := Returned tt.

Definition aborted : DBException :=
  {| code := 251; reason := "Transaction was aborted" |}.

Definition interrupted : DBException :=
  {| code := 11601; reason := "operation was interrupted" |}.

Definition emptyReply : InsertCommandReply :=
  {| getWriteCommandReplyBase :=
       {| reply_n := 0; reply_opTime := None; reply_electionId := None |} |}.

(** A reply to one inserted document, without replication fields. *)
Definition inserted : InsertCommandReply :=
  {| getWriteCommandReplyBase :=
       {| reply_n := 1; reply_opTime := None; reply_electionId := None |} |}.

Definition boot (w : World) : State World :=
  {| world := w; _fleCrudthreadPool := None; trace := [] |}.

End Script.


(** ** Stepping through the monad *)

Section Steps.
Context {W : Type} {C : Collaborators W}.

Lemma bind_returned {A B} (c : Exec W A) (k : A -> Exec W B) st a st' :
  c st = (Returned a, st') -> bind c k st = k a st'.
Proof. intros H. cbn. unfold Exec_bind. rewrite H. reflexivity. Qed.

Lemma bind_threw {A B} (c : Exec W A) (k : A -> Exec W B) st e st' :
  c st = (Threw e, st') -> bind c k st = (Threw e, st').
Proof. intros H. cbn. unfold Exec_bind. rewrite H. reflexivity. Qed.

Lemma after_after (st : State W) w1 w2 evs1 evs2 :
  after (after st w1 evs1) w2 evs2 = after st w2 (evs1 ++ evs2).
Proof. unfold after. cbn. rewrite app_assoc. reflexivity. Qed.

Lemma emit_after ev (st : State W) :
  emit ev st = (Returned tt, after st (world st) [ev]).
Proof. reflexivity. Qed.

Lemma call_outcome {A} ev (f : W -> Outcome A * W) st r w' :
  f (world st) = (r, w') -> call ev f st = (r, after st w' [ev]).
Proof.
  intros H. unfold call. rewrite (bind_returned _ _ _ (emit_after ev st)).
  unfold extern. cbn. rewrite H. reflexivity.
Qed.

Lemma read_value {A} ev (f : W -> A) st :
  read ev f st = (Returned (f (world st)), after st (world st) [ev]).
Proof. reflexivity. Qed.

Lemma try_catch_returned c (body : Exec W unit) st st' :
  body st = (Returned tt, st') ->
  try_catch_ExceptionFor c body st = (Returned tt, st').
Proof.
  intros H. unfold try_catch_ExceptionFor. cbn. unfold Exec_catch.
  rewrite H. reflexivity.
Qed.

Lemma try_catch_threw c (body : Exec W unit) st e st' :
  body st = (Threw e, st') ->
  try_catch_ExceptionFor c body st =
    (if Z.eqb (code e) c then Returned tt else Threw e, st').
Proof.
  intros H. unfold try_catch_ExceptionFor. cbn. unfold Exec_catch.
  rewrite H. destruct (Z.eqb (code e) c); reflexivity.
Qed.

End Steps.

(** ** The resource yielder *)

Section Yielder.
Context {W : Type} {C : Collaborators W}.

(** With no session on the context, [yield] does nothing and clears the flag. *)
Lemma yield_no_session this (st : State W) :
  OperationContextSession_get (world st) = None ->
  yield this st = (Returned {| _yielded := false |}, st).
Proof.
  intros Hs. unfold yield, query. cbn. unfold Exec_bind.
  rewrite Hs. reflexivity.
Qed.

(** With a session and a participant: stash, then check in. *)
Lemma yield_session_participant this (st : State W) s p w1 w2 :
  OperationContextSession_get (world st) = Some s ->
  TransactionParticipant_get (world st) = Some p ->
  stashTransactionResources p (world st) = (Returned tt, w1) ->
  checkIn w1 = (Returned tt, w2) ->
  yield this st = (Returned {| _yielded := true |}, after st w2 [EvStash p; EvCheckIn]).
Proof.
  intros Hs Hp Hstash Hin. unfold yield.
  rewrite (bind_returned _ _ st (a := Some s) (st' := st))
    by (unfold query; rewrite Hs; reflexivity).
  erewrite bind_returned; [reflexivity |].
  rewrite (bind_returned _ _ st (a := Some p) (st' := st))
    by (unfold query; rewrite Hp; reflexivity).
  rewrite (bind_returned _ _ st (call_outcome (EvStash p) _ st Hstash)).
  rewrite (call_outcome EvCheckIn checkIn (after st w1 [EvStash p]) (r := Returned tt) (w' := w2))
    by exact Hin.
  rewrite after_after. reflexivity.
Qed.

(** With a session but no participant: check in only. *)
Lemma yield_session_only this (st : State W) s w1 :
  OperationContextSession_get (world st) = Some s ->
  TransactionParticipant_get (world st) = None ->
  checkIn (world st) = (Returned tt, w1) ->
  yield this st = (Returned {| _yielded := true |}, after st w1 [EvCheckIn]).
Proof.
  intros Hs Hp Hin. unfold yield.
  rewrite (bind_returned _ _ st (a := Some s) (st' := st))
    by (unfold query; rewrite Hs; reflexivity).
  erewrite bind_returned; [reflexivity |].
  rewrite (bind_returned _ _ st (a := @None Participant) (st' := st))
    by (unfold query; rewrite Hp; reflexivity).
  rewrite (bind_returned _ _ st (a := tt) (st' := st)) by reflexivity.
  apply call_outcome. exact Hin.
Qed.

(** Without the flag, [unyield] does nothing. *)
Lemma unyield_not_yielded this (st : State W) :
  _yielded this = false -> unyield this st = (Returned tt, st).
Proof. intros H. unfold unyield. rewrite H. reflexivity. Qed.

(** With the flag: check out, then unstash if there is a participant. *)
Lemma unyield_unstash this (st : State W) w1 p r w2 :
  _yielded this = true ->
  checkOut (world st) = (Returned tt, w1) ->
  TransactionParticipant_get w1 = Some p ->
  unstashTransactionResources p "aggregate" w1 = (r, w2) ->
  unyield this st =
    (match r with
     | Returned _ => Returned tt
     | Threw e => if Z.eqb (code e) NoSuchTransaction then Returned tt else Threw e
     end, after st w2 [EvCheckOut; EvUnstash p "aggregate"]).
Proof.
  intros Hy Hout Hp Hun. unfold unyield. rewrite Hy.
  rewrite (bind_returned _ _ st (call_outcome EvCheckOut _ st Hout)).
  rewrite (bind_returned _ _ (after st w1 [EvCheckOut]) (a := Some p)
             (st' := after st w1 [EvCheckOut]))
    by (unfold query; cbn; rewrite Hp; reflexivity).
  pose proof (call_outcome (EvUnstash p "aggregate")
                (unstashTransactionResources p "aggregate")
                (after st w1 [EvCheckOut]) Hun) as Hcall.
  rewrite after_after in Hcall. cbn [app] in Hcall.
  destruct r as [[] | e].
  - apply try_catch_returned. exact Hcall.
  - apply try_catch_threw. exact Hcall.
Qed.

Lemma unyield_no_participant this (st : State W) w1 :
  _yielded this = true ->
  checkOut (world st) = (Returned tt, w1) ->
  TransactionParticipant_get w1 = None ->
  unyield this st = (Returned tt, after st w1 [EvCheckOut]).
Proof.
  intros Hy Hout Hp. unfold unyield. rewrite Hy.
  rewrite (bind_returned _ _ st (call_outcome EvCheckOut _ st Hout)).
  rewrite (bind_returned _ _ (after st w1 [EvCheckOut]) (a := @None Participant)
             (st' := after st w1 [EvCheckOut]))
    by (unfold query; cbn; rewrite Hp; reflexivity).
  reflexivity.
Qed.

End Yielder.

(** ** Statements about the yielder *)

(** C1.  If a session is attached to the context, [yield] stashes the
    participant's resources when a transaction participant exists, then
    checks the session in, and records the release in [_yielded]; these
    are its only calls, in that order.  If no session is attached it
    stashes nothing, checks nothing in and records that nothing was
    released. *)
Theorem yield_stashes_and_checks_in
  {W : Type} {C : Collaborators W} (this : FLEMongoDResourceYielder) (st : State W) :
  (forall s p w1 w2,
      OperationContextSession_get (world st) = Some s ->
      TransactionParticipant_get (world st) = Some p ->
      stashTransactionResources p (world st) = (Returned tt, w1) ->
      checkIn w1 = (Returned tt, w2) ->
      yield this st =
        (Returned {| _yielded := true |}, after st w2 [EvStash p; EvCheckIn]))
  /\ (forall s w1,
      OperationContextSession_get (world st) = Some s ->
      TransactionParticipant_get (world st) = None ->
      checkIn (world st) = (Returned tt, w1) ->
      yield this st = (Returned {| _yielded := true |}, after st w1 [EvCheckIn]))
  /\ (OperationContextSession_get (world st) = None ->
      yield this st = (Returned {| _yielded := false |}, st)).
Proof.
  split; [| split].
  - intros s p w1 w2. apply yield_session_participant.
  - intros s w1. apply yield_session_only.
  - apply yield_no_session.
Qed.

Lemma yield_stashes_and_checks_in_witness :
  yield new_FLEMongoDResourceYielder (Sim.boot Sim.member) =
    (Returned {| _yielded := true |},
     after (Sim.boot Sim.member)
       (Sim.set_sessions None (Some 7%nat) (Sim.set_stashed true Sim.member))
       [EvStash 3%nat; EvCheckIn])
  /\ yield new_FLEMongoDResourceYielder
       (Sim.boot (Sim.with_participant None Sim.member)) =
    (Returned {| _yielded := true |},
     after (Sim.boot (Sim.with_participant None Sim.member))
       (Sim.set_sessions None (Some 7%nat) (Sim.with_participant None Sim.member))
       [EvCheckIn])
  /\ yield {| _yielded := true |} (Sim.boot Sim.sessionless) =
    (Returned {| _yielded := false |}, Sim.boot Sim.sessionless).
Proof.
  split; [| split].
  - eapply (proj1 (yield_stashes_and_checks_in new_FLEMongoDResourceYielder
                    (Sim.boot Sim.member)) 7%nat 3%nat); reflexivity.
  - eapply (proj1 (proj2 (yield_stashes_and_checks_in new_FLEMongoDResourceYielder
                    (Sim.boot (Sim.with_participant None Sim.member)))) 7%nat);
      reflexivity.
  - apply (proj2 (proj2 (yield_stashes_and_checks_in {| _yielded := true |}
                    (Sim.boot Sim.sessionless)))); reflexivity.
Defined.

(** C2.  In an [unyield] whose [yield] released a session, when
    [unstashTransactionResources] throws: an exception with code
    [NoSuchTransaction] (the transaction was aborted meanwhile) is
    swallowed and [unyield] returns normally; an exception with any other
    code propagates out of [unyield] to the caller. *)
Theorem unyield_swallows_only_NoSuchTransaction
  {W : Type} {C : Collaborators W} (this : FLEMongoDResourceYielder) (st : State W)
  (w1 w2 : W) (p : Participant) (e : DBException) :
  _yielded this = true ->
  checkOut (world st) = (Returned tt, w1) ->
  TransactionParticipant_get w1 = Some p ->
  unstashTransactionResources p "aggregate" w1 = (Threw e, w2) ->
  (code e = NoSuchTransaction ->
     unyield this st = (Returned tt, after st w2 [EvCheckOut; EvUnstash p "aggregate"]))
  /\ (code e <> NoSuchTransaction ->
     unyield this st = (Threw e, after st w2 [EvCheckOut; EvUnstash p "aggregate"])).
Proof.
  intros Hy Hout Hp Hun.
  pose proof (unyield_unstash this st Hy Hout Hp Hun) as H. cbn in H.
  split; intros Hc.
  - rewrite H. apply Z.eqb_eq in Hc. rewrite Hc. reflexivity.
  - rewrite H. apply Z.eqb_neq in Hc. rewrite Hc. reflexivity.
Qed.

Lemma unyield_swallows_only_NoSuchTransaction_witness :
  let aborted := {| code := 251; reason := "Transaction was aborted" |} in
  let dup := {| code := 11000; reason := "E11000 duplicate key error" |} in
  let released o := Sim.set_sessions None (Some 7%nat) (Sim.with_unstash o Sim.member) in
  let reacquired o := Sim.set_sessions (Some 7%nat) None (released o) in
  unyield {| _yielded := true |} (Sim.boot (released (Threw aborted)))
    = (Returned tt,
       after (Sim.boot (released (Threw aborted))) (reacquired (Threw aborted))
         [EvCheckOut; EvUnstash 3%nat "aggregate"])
  /\ unyield {| _yielded := true |} (Sim.boot (released (Threw dup)))
    = (Threw dup,
       after (Sim.boot (released (Threw dup))) (reacquired (Threw dup))
         [EvCheckOut; EvUnstash 3%nat "aggregate"]).
Proof.
  intros aborted dup released reacquired. split.
  - refine (proj1 (unyield_swallows_only_NoSuchTransaction
              {| _yielded := true |} (Sim.boot (released (Threw aborted)))
              (w1 := reacquired (Threw aborted)) (w2 := reacquired (Threw aborted))
              (p := 3%nat) (e := aborted) _ _ _ _) _); reflexivity.
  - refine (proj2 (unyield_swallows_only_NoSuchTransaction
              {| _yielded := true |} (Sim.boot (released (Threw dup)))
              (w1 := reacquired (Threw dup)) (w2 := reacquired (Threw dup))
              (p := 3%nat) (e := dup) _ _ _ _) _); try reflexivity.
    cbn. unfold NoSuchTransaction. lia.
Defined.

(** C3.  [unyield] makes no call and changes nothing unless [_yielded] is
    set: with the flag clear it returns at once; so it does on a freshly
    constructed yielder; and so it does after a [yield] that found no
    session, which leaves the flag clear. *)
Theorem unyield_noop_unless_yielded {W : Type} {C : Collaborators W} (st : State W) :
  (forall this, _yielded this = false -> unyield this st = (Returned tt, st))
  /\ unyield new_FLEMongoDResourceYielder st = (Returned tt, st)
  /\ (forall this,
        OperationContextSession_get (world st) = None ->
        (this' <- yield this ;; unyield this') st = (Returned tt, st)).
Proof.
  split; [| split].
  - intros this. apply unyield_not_yielded.
  - apply unyield_not_yielded. reflexivity.
  - intros this Hs.
    rewrite (bind_returned _ _ st (yield_no_session this st Hs)).
    apply unyield_not_yielded. reflexivity.
Qed.

Lemma unyield_noop_unless_yielded_witness :
  unyield {| _yielded := false |} (Sim.boot Sim.member) = (Returned tt, Sim.boot Sim.member)
  /\ (this' <- yield {| _yielded := true |} ;; unyield this') (Sim.boot Sim.sessionless)
     = (Returned tt, Sim.boot Sim.sessionless).
Proof.
  split.
  - apply (proj1 (unyield_noop_unless_yielded (Sim.boot Sim.member))). reflexivity.
  - apply (proj2 (proj2 (unyield_noop_unless_yielded (Sim.boot Sim.sessionless)))).
    reflexivity.
Defined.

(** C10.  On a context with an attached session and no transaction
    participant, [yield] checks the session in and sets [_yielded] without
    stashing; the [unyield] that follows (in whatever state the blocking
    call left) checks the session out and, the context still having no
    participant, unstashes nothing. *)
Theorem yield_unyield_without_participant
  {W : Type} {C : Collaborators W} (this : FLEMongoDResourceYielder) (st : State W)
  (s : Session) (w1 : W) :
  OperationContextSession_get (world st) = Some s ->
  TransactionParticipant_get (world st) = None ->
  checkIn (world st) = (Returned tt, w1) ->
  yield this st = (Returned {| _yielded := true |}, after st w1 [EvCheckIn])
  /\ forall (st2 : State W) (w3 : W),
       checkOut (world st2) = (Returned tt, w3) ->
       TransactionParticipant_get w3 = None ->
       unyield {| _yielded := true |} st2 = (Returned tt, after st2 w3 [EvCheckOut]).
Proof.
  intros Hs Hp Hin. split.
  - eapply yield_session_only; eassumption.
  - intros st2 w3 Hout Hp3.
    apply unyield_no_participant; [reflexivity | assumption | assumption].
Qed.

Lemma yield_unyield_without_participant_witness :
  let w0 := Sim.with_participant None Sim.member in
  let w1 := Sim.set_sessions None (Some 7%nat) w0 in
  yield new_FLEMongoDResourceYielder (Sim.boot w0)
    = (Returned {| _yielded := true |}, after (Sim.boot w0) w1 [EvCheckIn])
  /\ unyield {| _yielded := true |} (after (Sim.boot w0) w1 [EvCheckIn])
    = (Returned tt, after (after (Sim.boot w0) w1 [EvCheckIn]) w0 [EvCheckOut]).
Proof.
  cbv zeta.
  pose proof (yield_unyield_without_participant new_FLEMongoDResourceYielder
           (Sim.boot (Sim.with_participant None Sim.member)) (s := 7%nat)
           (w1 := Sim.set_sessions None (Some 7%nat) (Sim.with_participant None Sim.member))
           eq_refl eq_refl eq_refl) as [Hyield Hunyield].
  split.
  - exact Hyield.
  - apply Hunyield; reflexivity.
Defined.

(** ** The reply metadata augmenter *)

Section Augmenter.
Context {W : Type} {C : Collaborators W}.

Lemma augment_both_set r (st : State W) :
  both_set r = true -> setMongosFieldsInReply r st = (Returned r, st).
Proof.
  unfold both_set. intros H. unfold setMongosFieldsInReply. rewrite H. reflexivity.
Qed.

Lemma augment_standalone r (st : State W) :
  both_set r = false ->
  getReplicationMode (world st) = modeNone ->
  setMongosFieldsInReply r st =
    (Returned r, after st (world st) [EvGetReplicationMode]).
Proof.
  unfold both_set. intros H Hm. unfold setMongosFieldsInReply. rewrite H.
  rewrite (bind_returned _ _ st (read_value EvGetReplicationMode _ st)).
  rewrite Hm. reflexivity.
Qed.

Lemma augment_replicated r (st : State W) :
  both_set r = false ->
  getReplicationMode (world st) <> modeNone ->
  setMongosFieldsInReply r st =
    (Returned {| reply_n := reply_n r;
                 reply_opTime := Some (getLastOp (world st));
                 reply_electionId := Some (getElectionId (world st)) |},
     after st (world st)
       [EvGetReplicationMode; EvGetLastOp; EvSetOpTime;
        EvGetElectionId; EvSetElectionId]).
Proof.
  unfold both_set. intros H Hm. unfold setMongosFieldsInReply. rewrite H.
  rewrite (bind_returned _ _ st (read_value EvGetReplicationMode _ st)).
  destruct (getReplicationMode (world st)); [congruence |].
  cbn. unfold Exec_bind. cbn. unfold after, setElectionId, setOpTime. cbn.
  rewrite <- !app_assoc. reflexivity.
Qed.

(** Whatever the case, the augmenter returns normally, leaves the
    collaborators and the pool alone, and only appends to the trace. *)
Lemma augment_cases r (st : State W) :
  (both_set r = true /\ setMongosFieldsInReply r st = (Returned r, st))
  \/ (exists r' evs,
        both_set r = false /\
        setMongosFieldsInReply r st = (Returned r', after st (world st) evs) /\
        ((r' = r /\ count_events is_setOpTime evs = 0%nat
                 /\ count_events is_setElectionId evs = 0%nat)
         \/ (both_set r' = true /\ count_events is_setOpTime evs = 1%nat
                 /\ count_events is_setElectionId evs = 1%nat))).
Proof.
  destruct (both_set r) eqn:Hb.
  - left. split; [reflexivity | apply augment_both_set; assumption].
  - right. destruct (getReplicationMode (world st)) eqn:Hm.
    + exists r, [EvGetReplicationMode]. split; [reflexivity |].
      split; [apply augment_standalone; assumption |].
      left. repeat split; reflexivity.
    + eexists _, _. split; [reflexivity |].
      split; [apply augment_replicated; [assumption | congruence] |].
      right. repeat split; reflexivity.
Qed.

Lemma count_events_app f evs1 evs2 :
  count_events f (evs1 ++ evs2) = (count_events f evs1 + count_events f evs2)%nat.
Proof. unfold count_events. rewrite filter_app, length_app. reflexivity. Qed.

(** Over any run of successive calls each setter is called at most once,
    and not at all when the reply starts with both fields set. *)
Lemma each_count (ws : list W) : forall r (st : State W),
  let st' := snd (setMongosFieldsInReply_each ws r st) in
  (count_events is_setOpTime (trace st') <= count_events is_setOpTime (trace st) + 1)%nat
  /\ (count_events is_setElectionId (trace st')
      <= count_events is_setElectionId (trace st) + 1)%nat
  /\ (both_set r = true ->
      count_events is_setOpTime (trace st') = count_events is_setOpTime (trace st)
      /\ count_events is_setElectionId (trace st')
         = count_events is_setElectionId (trace st)).
Proof.
  induction ws as [| w ws IH]; intros r st; cbn [setMongosFieldsInReply_each].
  - cbn [snd]. repeat split; lia.
  - set (st0 := {| world := w; _fleCrudthreadPool := _fleCrudthreadPool st;
                   trace := trace st |}).
    assert (Ht : trace st0 = trace st) by reflexivity.
    destruct (augment_cases r st0) as [[Hb Heq] | (r' & evs & Hb & Heq & Hcase)];
      rewrite Heq; cbv beta iota.
    + destruct (IH r st0) as (H1 & H2 & H3). rewrite Ht in *.
      cbv zeta. repeat split; try lia; destruct (H3 Hb); lia.
    + destruct (IH r' (after st0 (world st0) evs)) as (H1 & H2 & H3).
      cbv zeta in H1, H2, H3.
      change (trace (after st0 (world st0) evs)) with (trace st ++ evs)%list in H1, H2, H3.
      rewrite !count_events_app in H1, H2, H3.
      cbv zeta. split; [| split].
      * destruct Hcase as [(_ & Ho & _) | (Hb' & Ho & _)].
        -- rewrite Ho in H1. lia.
        -- destruct (H3 Hb') as [E _]. rewrite E, Ho. lia.
      * destruct Hcase as [(_ & _ & He) | (Hb' & _ & He)].
        -- rewrite He in H2. lia.
        -- destruct (H3 Hb') as [_ E]. rewrite E, count_events_app, He. lia.
      * congruence.
Qed.

End Augmenter.

(** C6.  [setMongosFieldsInReply] leaves the reply unchanged when the
    opTime and the electionId are both set already.  Otherwise, when the
    replication mode is not [modeNone], it sets both fields, the opTime
    from the last op and the electionId from the replication coordinator,
    and touches nothing else in the reply; when the mode is [modeNone] it
    leaves the reply unchanged. *)
Theorem setMongosFieldsInReply_spec
  {W : Type} {C : Collaborators W} (r : WriteCommandReplyBase) (st : State W) :
  (both_set r = true -> setMongosFieldsInReply r st = (Returned r, st))
  /\ (both_set r = false ->
      getReplicationMode (world st) <> modeNone ->
      setMongosFieldsInReply r st =
        (Returned {| reply_n := reply_n r;
                     reply_opTime := Some (getLastOp (world st));
                     reply_electionId := Some (getElectionId (world st)) |},
         after st (world st)
           [EvGetReplicationMode; EvGetLastOp; EvSetOpTime;
            EvGetElectionId; EvSetElectionId]))
  /\ (both_set r = false ->
      getReplicationMode (world st) = modeNone ->
      setMongosFieldsInReply r st =
        (Returned r, after st (world st) [EvGetReplicationMode])).
Proof.
  split; [| split].
  - apply augment_both_set.
  - apply augment_replicated.
  - apply augment_standalone.
Qed.

Lemma setMongosFieldsInReply_spec_witness :
  let t := {| op_timestamp := 5; op_term := 1 |} in
  let full := {| reply_n := 1; reply_opTime := Some t; reply_electionId := Some 9 |} in
  let bare := {| reply_n := 1; reply_opTime := None; reply_electionId := None |} in
  setMongosFieldsInReply full (Sim.boot Sim.member) = (Returned full, Sim.boot Sim.member)
  /\ fst (setMongosFieldsInReply bare (Sim.boot Sim.member))
     = Returned {| reply_n := 1;
                   reply_opTime := Some {| op_timestamp := 100; op_term := 2 |};
                   reply_electionId := Some 42 |}
  /\ fst (setMongosFieldsInReply bare (Sim.boot Sim.standalone)) = Returned bare.
Proof.
  intros t full bare. split; [| split].
  - apply (proj1 (setMongosFieldsInReply_spec full (Sim.boot Sim.member))). reflexivity.
  - rewrite (proj1 (proj2 (setMongosFieldsInReply_spec bare (Sim.boot Sim.member))));
      [reflexivity | reflexivity | discriminate].
  - rewrite (proj2 (proj2 (setMongosFieldsInReply_spec bare (Sim.boot Sim.standalone))));
      reflexivity.
Defined.

(** C7.  Applying [setMongosFieldsInReply] twice in a row gives the same
    reply as applying it once (the calls do not change the collaborators,
    so the second call sees the coordinator the first one saw); and when
    both fields are set on entry nothing is read from the replication
    coordinator: the state, trace included, is returned as it was. *)
Theorem setMongosFieldsInReply_idempotent
  {W : Type} {C : Collaborators W} (r : WriteCommandReplyBase) (st : State W) :
  (exists r1 st1 st2,
      setMongosFieldsInReply r st = (Returned r1, st1)
      /\ (r' <- setMongosFieldsInReply r ;; setMongosFieldsInReply r') st
         = (Returned r1, st2)
      /\ world st1 = world st /\ world st2 = world st)
  /\ (both_set r = true ->
      setMongosFieldsInReply r st = (Returned r, st)
      /\ count_events is_replCoord_read (trace (snd (setMongosFieldsInReply r st)))
         = count_events is_replCoord_read (trace st)).
Proof.
  split.
  - destruct (both_set r) eqn:Hb; [| destruct (getReplicationMode (world st)) eqn:Hm].
    + exists r, st, st. pose proof (augment_both_set r st Hb) as H.
      rewrite (bind_returned _ _ st H). auto.
    + pose proof (augment_standalone r st Hb Hm) as H.
      exists r, (after st (world st) [EvGetReplicationMode]),
        (after st (world st) [EvGetReplicationMode; EvGetReplicationMode]).
      rewrite (bind_returned _ _ st H).
      rewrite (augment_standalone r (after st (world st) [EvGetReplicationMode]) Hb Hm).
      rewrite after_after. auto.
    + assert (Hne : getReplicationMode (world st) <> modeNone) by congruence.
      pose proof (augment_replicated r st Hb Hne) as H.
      eexists _, _, _. split; [exact H | split].
      * rewrite (bind_returned _ _ st H). apply augment_both_set. reflexivity.
      * auto.
  - intros Hb. rewrite (augment_both_set r st Hb). auto.
Qed.

Lemma setMongosFieldsInReply_idempotent_witness :
  let full := {| reply_n := 1;
                 reply_opTime := Some {| op_timestamp := 5; op_term := 1 |};
                 reply_electionId := Some 9 |} in
  setMongosFieldsInReply full (Sim.boot Sim.member) = (Returned full, Sim.boot Sim.member)
  /\ count_events is_replCoord_read
       (trace (snd (setMongosFieldsInReply full (Sim.boot Sim.member))))
     = count_events is_replCoord_read (trace (Sim.boot Sim.member)).
Proof.
  intros full.
  apply (proj2 (setMongosFieldsInReply_idempotent full (Sim.boot Sim.member))).
  reflexivity.
Defined.

(** C8, as stated, fails: a reply that arrives with its opTime set and its
    electionId unset has the opTime overwritten on a replica-set member. *)
Lemma setMongosFieldsInReply_overwrites_set_opTime :
  let t0 := {| op_timestamp := 5; op_term := 1 |} in
  let t1 := {| op_timestamp := 100; op_term := 2 |} in
  let r0 := {| reply_n := 1; reply_opTime := Some t0; reply_electionId := None |} in
  reply_opTime r0 = Some t0
  /\ fst (setMongosFieldsInReply r0 (Sim.boot Sim.member))
     = Returned {| reply_n := 1; reply_opTime := Some t1; reply_electionId := Some 42 |}
  /\ t0 <> t1
  /\ count_events is_setOpTime
       (trace (snd (setMongosFieldsInReply r0 (Sim.boot Sim.member)))) = 1%nat.
Proof.
  cbv zeta. repeat split; try reflexivity. discriminate.
Qed.

(** C8, amended.  Over any run of successive augmenter calls on a reply
    (whatever the collaborators do in between), each of the two optional
    fields is set at most once by the augmenter.  A field that is set on
    entry is left as it is when the other field is set too, or when the
    replication mode is [modeNone]. *)
Theorem setMongosFieldsInReply_sets_at_most_once
  {W : Type} {C : Collaborators W} (r : WriteCommandReplyBase) (st : State W) :
  (forall ws : list W,
      let st' := snd (setMongosFieldsInReply_each ws r st) in
      (count_events is_setOpTime (trace st')
       <= count_events is_setOpTime (trace st) + 1)%nat
      /\ (count_events is_setElectionId (trace st')
          <= count_events is_setElectionId (trace st) + 1)%nat)
  /\ (both_set r = true -> setMongosFieldsInReply r st = (Returned r, st))
  /\ (getReplicationMode (world st) = modeNone ->
      fst (setMongosFieldsInReply r st) = Returned r).
Proof.
  split; [| split].
  - intros ws. destruct (each_count ws r st) as (H1 & H2 & _). split; assumption.
  - apply augment_both_set.
  - intros Hm. destruct (both_set r) eqn:Hb.
    + rewrite augment_both_set by assumption. reflexivity.
    + rewrite augment_standalone by assumption. reflexivity.
Qed.

Lemma setMongosFieldsInReply_sets_at_most_once_witness :
  let full := {| reply_n := 1;
                 reply_opTime := Some {| op_timestamp := 5; op_term := 1 |};
                 reply_electionId := Some 9 |} in
  let half := {| reply_n := 1;
                 reply_opTime := Some {| op_timestamp := 5; op_term := 1 |};
                 reply_electionId := None |} in
  setMongosFieldsInReply full (Sim.boot Sim.member) = (Returned full, Sim.boot Sim.member)
  /\ fst (setMongosFieldsInReply half (Sim.boot Sim.standalone)) = Returned half.
Proof.
  intros full half. split.
  - apply (proj1 (proj2 (setMongosFieldsInReply_sets_at_most_once full
                           (Sim.boot Sim.member)))).
    reflexivity.
  - apply (proj2 (proj2 (setMongosFieldsInReply_sets_at_most_once half
                           (Sim.boot Sim.standalone)))).
    reflexivity.
Defined.

(** ** The pool lifecycle *)

Section Lifecycle.
Context {W : Type} {C : Collaborators W}.

(** On a standalone node [startFLECrud] creates no pool. *)
Lemma startFLECrud_standalone (st : State W) :
  getReplicationMode (world st) = modeNone ->
  startFLECrud st = (Returned tt, after st (world st) [EvGetReplicationMode]).
Proof.
  intros Hm. unfold startFLECrud.
  rewrite (bind_returned _ _ st (read_value EvGetReplicationMode _ st)).
  rewrite Hm. reflexivity.
Qed.

Lemma stopFLECrud_not_started (st : State W) :
  _fleCrudthreadPool st = None -> stopFLECrud st = (Returned tt, st).
Proof.
  intros Hp. unfold stopFLECrud, get_fleCrudthreadPool. cbn. unfold Exec_bind.
  rewrite Hp. reflexivity.
Qed.

Lemma stopFLECrud_started (st : State W) p :
  _fleCrudthreadPool st = Some p ->
  stopFLECrud st =
    (Returned tt, after st (ThreadPool_shutdown p (world st)) [EvPoolShutdown p]).
Proof.
  intros Hp. unfold stopFLECrud, get_fleCrudthreadPool. cbn. unfold Exec_bind.
  rewrite Hp. reflexivity.
Qed.

End Lifecycle.

(** C5, as stated, fails: [stopFLECrud] on a started pool calls
    [shutdown] and returns; it never calls [join], so with a pool whose
    [shutdown] only signals, the two tasks that were running are still in
    flight when the call returns. *)
Lemma stopFLECrud_does_not_join :
  exists st',
    stopFLECrud (Sim.busy 2) = (Returned tt, st')
    /\ trace st' = [EvGetReplicationMode; EvPoolStartup Sim.pool; EvPoolShutdown Sim.pool]
    /\ (forall p, ~ In (EvPoolJoin p) (trace st'))
    /\ Sim.inFlight (world st') = 2%nat.
Proof.
  eexists. split; [reflexivity |]. split; [reflexivity |]. split; [| reflexivity].
  intros p [H | [H | [H | []]]]; discriminate H.
Qed.

(** C5, amended.  [stopFLECrud] is a no-op (no error, no call, no change
    of state) when the pool was never started.  When the pool was
    started, it calls [shutdown] on the pool, once, and returns: that is
    its only call, and the pool pointer is kept. *)
Theorem stopFLECrud_spec {W : Type} {C : Collaborators W} (st : State W) :
  (_fleCrudthreadPool st = None -> stopFLECrud st = (Returned tt, st))
  /\ (forall p,
        _fleCrudthreadPool st = Some p ->
        stopFLECrud st =
          (Returned tt,
           after st (ThreadPool_shutdown p (world st)) [EvPoolShutdown p])).
Proof.
  split.
  - apply stopFLECrud_not_started.
  - intros p. apply stopFLECrud_started.
Qed.

Lemma stopFLECrud_spec_witness :
  stopFLECrud (Sim.boot Sim.standalone) = (Returned tt, Sim.boot Sim.standalone)
  /\ stopFLECrud (Sim.busy 2) =
       (Returned tt,
        after (Sim.busy 2) (Sim.set_pool false 2 Sim.member) [EvPoolShutdown Sim.pool]).
Proof.
  split.
  - apply (proj1 (stopFLECrud_spec (Sim.boot Sim.standalone))). reflexivity.
  - rewrite (proj2 (stopFLECrud_spec (Sim.busy 2)) Sim.pool); reflexivity.
Defined.

(** ** The insert entry point *)

Section Insert.
Context {W : Type} {C : Collaborators W}.

Lemma processFLEInsert_uassert req reply (st : State W) :
  getReplicationMode (world st) <> modeReplSet ->
  processFLEInsert req reply st =
    (Threw uassert_6371602, after st (world st) [EvGetReplicationMode]).
Proof.
  intros Hm. unfold processFLEInsert.
  rewrite (bind_returned _ _ st (read_value EvGetReplicationMode _ st)).
  destruct (getReplicationMode (world st)); [| congruence].
  reflexivity.
Qed.

(** Past the [uassert], [processInsert] is called, with the pool the
    global holds; its result decides the rest. *)
Lemma processFLEInsert_calls_processInsert req reply (st : State W) r w' :
  getReplicationMode (world st) = modeReplSet ->
  processInsert req (getTransactionWithRetriesForMongoD (_fleCrudthreadPool st))
    (world st) = (r, w') ->
  processFLEInsert req reply st =
    match r with
    | Returned (kNotProcessed, _) =>
        (Returned (kNotProcessed, reply),
         after st w' [EvGetReplicationMode; EvProcessInsert])
    | Returned (kProcessed, insertReplyReturn) =>
        (base <- setMongosFieldsInReply (getWriteCommandReplyBase insertReplyReturn) ;;
         ret (kProcessed, {| getWriteCommandReplyBase := base |}))
          (after st w' [EvGetReplicationMode; EvProcessInsert; EvAssignReply])
    | Threw e => (Threw e, after st w' [EvGetReplicationMode; EvProcessInsert])
    end.
Proof.
  intros Hm Hr. unfold processFLEInsert.
  rewrite (bind_returned _ _ st (read_value EvGetReplicationMode _ st)).
  rewrite Hm. cbn [Mode_eqb uassert].
  set (st1 := after st (world st) [EvGetReplicationMode]).
  rewrite (bind_returned _ _ st1 (a := tt) (st' := st1)) by reflexivity.
  rewrite (bind_returned _ _ st1 (a := _fleCrudthreadPool st) (st' := st1)) by reflexivity.
  assert (Hcall := call_outcome EvProcessInsert
            (processInsert req (getTransactionWithRetriesForMongoD (_fleCrudthreadPool st)))
            st1 Hr).
  subst st1. rewrite after_after in Hcall. cbn [app] in Hcall.
  destruct r as [[[|] rr] | e].
  - rewrite (bind_returned _ _ _ Hcall).
    rewrite (bind_returned _ _ _
               (emit_after EvAssignReply
                  (after st w' [EvGetReplicationMode; EvProcessInsert]))).
    rewrite after_after. reflexivity.
  - rewrite (bind_returned _ _ _ Hcall). reflexivity.
  - apply bind_threw. exact Hcall.
Qed.

End Insert.

(** C4.  On a node whose replication mode is [modeNone],
    [processFLEInsert] throws the [uassert] error 6371602 (encrypted index
    operations are only supported on replica sets).  The mode is read
    once and nothing else happens: [processInsert] (and with it the
    transaction with retries and the pool) is not reached, the
    collaborators and the pool pointer are as before, and there is no
    second attempt. *)
Theorem processFLEInsert_standalone
  {W : Type} {C : Collaborators W} (req : InsertCommandRequest)
  (reply : InsertCommandReply) (st : State W) :
  getReplicationMode (world st) = modeNone ->
  processFLEInsert req reply st =
    (Threw {| code := 6371602;
              reason := "Encrypted index operations are only supported on replica sets" |},
     after st (world st) [EvGetReplicationMode]).
Proof.
  intros Hm. apply processFLEInsert_uassert. congruence.
Qed.

Lemma processFLEInsert_standalone_witness :
  let reply := {| getWriteCommandReplyBase :=
                    {| reply_n := 5; reply_opTime := None; reply_electionId := None |} |} in
  processFLEInsert {| request_documents := [1; 2] |} reply (Sim.boot Sim.standalone) =
    (Threw {| code := 6371602;
              reason := "Encrypted index operations are only supported on replica sets" |},
     after (Sim.boot Sim.standalone) Sim.standalone [EvGetReplicationMode]).
Proof.
  intros reply.
  apply (processFLEInsert_standalone {| request_documents := [1; 2] |} reply
           (Sim.boot Sim.standalone)).
  reflexivity.
Defined.

(** C9.  When [processInsert] reports [kNotProcessed] (no field needs
    special handling), [processFLEInsert] returns [kNotProcessed] and the
    caller's reply object is as it was: the reply [processInsert] returned
    is not assigned to it and [setMongosFieldsInReply] is not called (the
    only calls are the mode read and [processInsert]). *)
Theorem processFLEInsert_not_processed
  {W : Type} {C : Collaborators W} (req : InsertCommandRequest)
  (reply insertReplyReturn : InsertCommandReply) (st : State W) (w' : W) :
  getReplicationMode (world st) = modeReplSet ->
  processInsert req (getTransactionWithRetriesForMongoD (_fleCrudthreadPool st))
    (world st) = (Returned (kNotProcessed, insertReplyReturn), w') ->
  processFLEInsert req reply st =
    (Returned (kNotProcessed, reply),
     after st w' [EvGetReplicationMode; EvProcessInsert]).
Proof.
  intros Hm Hr.
  rewrite (processFLEInsert_calls_processInsert req reply st Hm Hr). reflexivity.
Qed.

Lemma processFLEInsert_not_processed_witness :
  let reply := {| getWriteCommandReplyBase :=
                    {| reply_n := 5; reply_opTime := None; reply_electionId := None |} |} in
  processFLEInsert {| request_documents := [1; 2] |} reply (Sim.busy 0) =
    (Returned (kNotProcessed, reply),
     after (Sim.busy 0) (world (Sim.busy 0)) [EvGetReplicationMode; EvProcessInsert]).
Proof.
  intros reply.
  refine (processFLEInsert_not_processed {| request_documents := [1; 2] |} reply
            (insertReplyReturn :=
               {| getWriteCommandReplyBase :=
                    {| reply_n := 0; reply_opTime := None; reply_electionId := None |} |})
            (Sim.busy 0) _ _); reflexivity.
Defined.

(** * Further properties of the code *)

(** ** Every path through the yielder *)

Section YielderPaths.
Context {W : Type} {C : Collaborators W}.

(** [yield], path by path, exceptional exits included. *)
Lemma yield_run this (st : State W) :
  yield this st =
    match OperationContextSession_get (world st) with
    | None => (Returned {| _yielded := false |}, st)
    | Some _ =>
        match TransactionParticipant_get (world st) with
        | Some p =>
            match stashTransactionResources p (world st) with
            | (Returned _, w1) =>
                match checkIn w1 with
                | (Returned _, w2) =>
                    (Returned {| _yielded := true |}, after st w2 [EvStash p; EvCheckIn])
                | (Threw e, w2) => (Threw e, after st w2 [EvStash p; EvCheckIn])
                end
            | (Threw e, w1) => (Threw e, after st w1 [EvStash p])
            end
        | None =>
            match checkIn (world st) with
            | (Returned _, w1) => (Returned {| _yielded := true |}, after st w1 [EvCheckIn])
            | (Threw e, w1) => (Threw e, after st w1 [EvCheckIn])
            end
        end
    end.
Proof.
  unfold yield, call, query, emit, extern. cbn. unfold Exec_bind. cbn.
  destruct (OperationContextSession_get (world st)) as [s |]; [| reflexivity].
  destruct (TransactionParticipant_get (world st)) as [p |].
  - destruct (stashTransactionResources p (world st)) as [[[] | e] w1]; [| reflexivity].
    cbn. destruct (checkIn w1) as [[[] | e] w2];
      unfold after; cbn; rewrite <- app_assoc; reflexivity.
  - cbn. destruct (checkIn (world st)) as [[[] | e] w1]; reflexivity.
Qed.

(** [unyield], path by path. *)
Lemma unyield_run this (st : State W) :
  unyield this st =
    if _yielded this then
      match checkOut (world st) with
      | (Returned _, w1) =>
          match TransactionParticipant_get w1 with
          | Some p =>
              match unstashTransactionResources p "aggregate" w1 with
              | (Returned _, w2) =>
                  (Returned tt, after st w2 [EvCheckOut; EvUnstash p "aggregate"])
              | (Threw e, w2) =>
                  (if Z.eqb (code e) NoSuchTransaction then Returned tt else Threw e,
                   after st w2 [EvCheckOut; EvUnstash p "aggregate"])
              end
          | None => (Returned tt, after st w1 [EvCheckOut])
          end
      | (Threw e, w1) => (Threw e, after st w1 [EvCheckOut])
      end
    else (Returned tt, st).
Proof.
  destruct (_yielded this) eqn:Hy; [| apply unyield_not_yielded; assumption].
  destruct (checkOut (world st)) as [[[] | e] w1] eqn:Hout.
  - destruct (TransactionParticipant_get w1) as [p |] eqn:Hp.
    + destruct (unstashTransactionResources p "aggregate" w1) as [r w2] eqn:Hun.
      rewrite (unyield_unstash this st Hy Hout Hp Hun).
      destruct r as [[] | e]; reflexivity.
    + apply unyield_no_participant; assumption.
  - unfold unyield. rewrite Hy.
    apply bind_threw. apply call_outcome. exact Hout.
Qed.

End YielderPaths.

(** X1.  A throw from [stashTransactionResources] leaves [yield] before
    [checkIn] is called: the session stays checked out.  A throw from
    [checkIn] leaves [yield] too.  In both cases the exception reaches the
    caller unchanged. *)
Theorem yield_propagates_throw
  {W : Type} {C : Collaborators W} (this : FLEMongoDResourceYielder) (st : State W)
  (s : Session) (p : Participant) :
  OperationContextSession_get (world st) = Some s ->
  TransactionParticipant_get (world st) = Some p ->
  (forall e w1,
      stashTransactionResources p (world st) = (Threw e, w1) ->
      yield this st = (Threw e, after st w1 [EvStash p]))
  /\ (forall w1 e w2,
      stashTransactionResources p (world st) = (Returned tt, w1) ->
      checkIn w1 = (Threw e, w2) ->
      yield this st = (Threw e, after st w2 [EvStash p; EvCheckIn])).
Proof.
  intros Hs Hp. split.
  - intros e w1 Hstash. rewrite yield_run, Hs, Hp, Hstash. reflexivity.
  - intros w1 e w2 Hstash Hin. rewrite yield_run, Hs, Hp, Hstash, Hin. reflexivity.
Qed.

Lemma yield_propagates_throw_witness :
  let w1 := Script.member (Threw Script.interrupted) Script.ok Script.ok Script.ok
              (Returned (kNotProcessed, Script.emptyReply)) in
  let w2 := Script.member Script.ok (Threw Script.interrupted) Script.ok Script.ok
              (Returned (kNotProcessed, Script.emptyReply)) in
  yield new_FLEMongoDResourceYielder (Script.boot w1)
    = (Threw Script.interrupted, after (Script.boot w1) w1 [EvStash 3%nat])
  /\ yield new_FLEMongoDResourceYielder (Script.boot w2)
    = (Threw Script.interrupted, after (Script.boot w2) w2 [EvStash 3%nat; EvCheckIn]).
Proof.
  intros w1 w2. split.
  - refine (proj1 (yield_propagates_throw new_FLEMongoDResourceYielder (Script.boot w1)
                     (s := 7%nat) (p := 3%nat) _ _) Script.interrupted w1 _); reflexivity.
  - refine (proj2 (yield_propagates_throw new_FLEMongoDResourceYielder (Script.boot w2)
                     (s := 7%nat) (p := 3%nat) _ _) w2 Script.interrupted w2 _ _);
      reflexivity.
Defined.

(** X2.  What a normal return of [yield] tells the caller.  The flag it
    leaves is exactly whether a session was attached.  If the flag is
    set, [checkIn] was the last call made, preceded by at most one stash;
    if it is clear, nothing was called and nothing changed. *)
Theorem yield_returned_inv
  {W : Type} {C : Collaborators W} (this this' : FLEMongoDResourceYielder)
  (st st' : State W) :
  yield this st = (Returned this', st') ->
  _yielded this' = has_value (OperationContextSession_get (world st))
  /\ (_yielded this' = true ->
      exists evs, trace st' = (trace st ++ evs ++ [EvCheckIn])%list
                  /\ (evs = [] \/ exists p, evs = [EvStash p]))
  /\ (_yielded this' = false -> st' = st).
Proof.
  rewrite yield_run.
  destruct (OperationContextSession_get (world st)) as [s |].
  - destruct (TransactionParticipant_get (world st)) as [p |].
    + destruct (stashTransactionResources p (world st)) as [[[] | e] w1];
        [| discriminate].
      destruct (checkIn w1) as [[[] | e] w2]; [| discriminate].
      intros H. inversion H; subst. cbn. split; [reflexivity | split].
      * intros _. exists [EvStash p]. split; [reflexivity | right; eauto].
      * discriminate.
    + destruct (checkIn (world st)) as [[[] | e] w1]; [| discriminate].
      intros H. inversion H; subst. cbn. split; [reflexivity | split].
      * intros _. exists []. split; [reflexivity | left; reflexivity].
      * discriminate.
  - intros H. inversion H; subst. cbn. split; [reflexivity | split].
    + discriminate.
    + reflexivity.
Qed.

Lemma yield_returned_inv_witness :
  exists evs,
    trace (after (Sim.boot Sim.member)
             (Sim.set_sessions None (Some 7%nat) (Sim.set_stashed true Sim.member))
             [EvStash 3%nat; EvCheckIn])
      = (trace (Sim.boot Sim.member) ++ evs ++ [EvCheckIn])%list
    /\ (evs = [] \/ exists p, evs = [EvStash p]).
Proof.
  refine (proj1 (proj2 (yield_returned_inv new_FLEMongoDResourceYielder
                          (this' := {| _yielded := true |}) (Sim.boot Sim.member) _)) _);
    reflexivity.
Defined.

(** X3.  A throw from [checkOut] leaves [unyield] whatever its code: the
    handler for [NoSuchTransaction] covers the unstash only, and the
    unstash is not attempted. *)
Theorem unyield_checkOut_throw_not_swallowed
  {W : Type} {C : Collaborators W} (this : FLEMongoDResourceYielder) (st : State W)
  (e : DBException) (w1 : W) :
  _yielded this = true ->
  checkOut (world st) = (Threw e, w1) ->
  unyield this st = (Threw e, after st w1 [EvCheckOut]).
Proof.
  intros Hy Hout. rewrite unyield_run, Hy, Hout. reflexivity.
Qed.

Lemma unyield_checkOut_throw_not_swallowed_witness :
  let w := Script.member Script.ok Script.ok (Threw Script.aborted) Script.ok
             (Returned (kNotProcessed, Script.emptyReply)) in
  code Script.aborted = NoSuchTransaction
  /\ unyield {| _yielded := true |} (Script.boot w)
     = (Threw Script.aborted, after (Script.boot w) w [EvCheckOut]).
Proof.
  intros w. split; [reflexivity |].
  refine (unyield_checkOut_throw_not_swallowed {| _yielded := true |} (Script.boot w)
            (e := Script.aborted) (w1 := w) _ _); reflexivity.
Defined.

(** X4.  What a throw out of [unyield] tells the caller: the flag was set,
    and the exception either came from [checkOut] or is an unstash failure
    whose code is not [NoSuchTransaction]. *)
Theorem unyield_threw_inv
  {W : Type} {C : Collaborators W} (this : FLEMongoDResourceYielder)
  (st st' : State W) (e : DBException) :
  unyield this st = (Threw e, st') ->
  _yielded this = true
  /\ ((exists w1, checkOut (world st) = (Threw e, w1))
      \/ (code e <> NoSuchTransaction
          /\ exists w1 p w2,
               checkOut (world st) = (Returned tt, w1)
               /\ TransactionParticipant_get w1 = Some p
               /\ unstashTransactionResources p "aggregate" w1 = (Threw e, w2))).
Proof.
  rewrite unyield_run. destruct (_yielded this); [| discriminate].
  destruct (checkOut (world st)) as [[[] | e1] w1].
  - destruct (TransactionParticipant_get w1) as [p |] eqn:Hp; [| discriminate].
    destruct (unstashTransactionResources p "aggregate" w1) as [[[] | e2] w2] eqn:Hun;
      [discriminate |].
    destruct (Z.eqb (code e2) NoSuchTransaction) eqn:Hc; [discriminate |].
    intros H. inversion H; subst. split; [reflexivity |]. right. split.
    + apply Z.eqb_neq. exact Hc.
    + exists w1, p, w2. auto.
  - intros H. inversion H; subst. split; [reflexivity |]. left. eauto.
Qed.

Lemma unyield_threw_inv_witness :
  let w := Script.member Script.ok Script.ok Script.ok (Threw Script.interrupted)
             (Returned (kNotProcessed, Script.emptyReply)) in
  _yielded {| _yielded := true |} = true
  /\ ((exists w1, checkOut w = (Threw Script.interrupted, w1))
      \/ (code Script.interrupted <> NoSuchTransaction
          /\ exists w1 p w2,
               checkOut w = (Returned tt, w1)
               /\ TransactionParticipant_get w1 = Some p
               /\ unstashTransactionResources p "aggregate" w1
                  = (Threw Script.interrupted, w2))).
Proof.
  intros w.
  refine (unyield_threw_inv {| _yielded := true |} (Script.boot w)
            (st' := after (Script.boot w) w [EvCheckOut; EvUnstash 3%nat "aggregate"])
            (e := Script.interrupted) _).
  reflexivity.
Defined.

(** With the flag set, the calls of [unyield] start with [checkOut];
    at most one unstash, for the command name "aggregate", follows. *)
Lemma unyield_calls
  {W : Type} {C : Collaborators W} (this : FLEMongoDResourceYielder) (st : State W) :
  _yielded this = true ->
  exists evs,
    trace (snd (unyield this st)) = (trace st ++ EvCheckOut :: evs)%list
    /\ (evs = [] \/ exists p, evs = [EvUnstash p "aggregate"]).
Proof.
  intros Hy. rewrite unyield_run, Hy.
  destruct (checkOut (world st)) as [[[] | e1] w1].
  - destruct (TransactionParticipant_get w1) as [p |].
    + exists [EvUnstash p "aggregate"].
      destruct (unstashTransactionResources p "aggregate" w1) as [[[] | e2] w2];
        (split; [reflexivity | right; eauto]).
    + exists []. split; [reflexivity | left; reflexivity].
  - exists []. split; [reflexivity | left; reflexivity].
Qed.

(** X5.  Bracketing a blocking call: when the four session calls return,
    [yield], the call, [unyield] in sequence perform stash, checkIn, the
    call, checkOut, unstash in that order and return normally; the
    participant unstashed is the one found after the checkout. *)
Theorem yield_call_unyield
  {W : Type} {C : Collaborators W} (this : FLEMongoDResourceYielder) (st : State W)
  (blocking : Exec W unit) (s : Session) (p p' : Participant) (w1 w2 w4 w5 : W)
  (st3 : State W) :
  OperationContextSession_get (world st) = Some s ->
  TransactionParticipant_get (world st) = Some p ->
  stashTransactionResources p (world st) = (Returned tt, w1) ->
  checkIn w1 = (Returned tt, w2) ->
  blocking (after st w2 [EvStash p; EvCheckIn]) = (Returned tt, st3) ->
  checkOut (world st3) = (Returned tt, w4) ->
  TransactionParticipant_get w4 = Some p' ->
  unstashTransactionResources p' "aggregate" w4 = (Returned tt, w5) ->
  (this' <- yield this ;; blocking ;; unyield this') st =
    (Returned tt, after st3 w5 [EvCheckOut; EvUnstash p' "aggregate"]).
Proof.
  intros Hs Hp Hstash Hin Hb Hout Hp' Hun.
  rewrite (bind_returned _ _ st (yield_session_participant this st Hs Hp Hstash Hin)).
  rewrite (bind_returned _ _ _ Hb).
  rewrite (unyield_unstash {| _yielded := true |} st3 eq_refl Hout Hp' Hun).
  reflexivity.
Qed.

Lemma yield_call_unyield_witness :
  (this' <- yield new_FLEMongoDResourceYielder ;; ret tt ;; unyield this')
    (Sim.boot Sim.member)
  = (Returned tt,
     after (after (Sim.boot Sim.member)
              (Sim.set_sessions None (Some 7%nat) (Sim.set_stashed true Sim.member))
              [EvStash 3%nat; EvCheckIn])
       Sim.member [EvCheckOut; EvUnstash 3%nat "aggregate"]).
Proof.
  refine (yield_call_unyield new_FLEMongoDResourceYielder (Sim.boot Sim.member) (ret tt)
            (s := 7%nat) (p := 3%nat) (p' := 3%nat)
            (w1 := Sim.set_stashed true Sim.member)
            (w2 := Sim.set_sessions None (Some 7%nat) (Sim.set_stashed true Sim.member))
            (w4 := Sim.set_stashed true Sim.member)
            (w5 := Sim.member) _ _ _ _ _ _ _ _); reflexivity.
Defined.

(** X6.  [unyield] does not clear [_yielded]: once a [yield] has set it, a
    second [unyield] with no [yield] in between checks the session out a
    second time. *)
Theorem unyield_twice_checks_out_twice
  {W : Type} {C : Collaborators W} (this : FLEMongoDResourceYielder)
  (st st1 : State W) :
  _yielded this = true ->
  unyield this st = (Returned tt, st1) ->
  exists evs1 evs2,
    trace (snd ((unyield this ;; unyield this) st))
    = (trace st ++ EvCheckOut :: evs1 ++ EvCheckOut :: evs2)%list.
Proof.
  intros Hy H1.
  destruct (unyield_calls this st Hy) as (evs1 & Ht1 & _).
  destruct (unyield_calls this st1 Hy) as (evs2 & Ht2 & _).
  exists evs1, evs2.
  rewrite (bind_returned _ _ st H1). rewrite Ht2.
  rewrite H1 in Ht1. cbn [snd] in Ht1. rewrite Ht1.
  rewrite <- app_assoc. reflexivity.
Qed.

Lemma unyield_twice_checks_out_twice_witness :
  let w := Script.member Script.ok Script.ok Script.ok Script.ok
             (Returned (kNotProcessed, Script.emptyReply)) in
  exists evs1 evs2,
    trace (snd ((unyield {| _yielded := true |} ;; unyield {| _yielded := true |})
                  (Script.boot w)))
    = (trace (Script.boot w) ++ EvCheckOut :: evs1 ++ EvCheckOut :: evs2)%list.
Proof.
  intros w.
  refine (unyield_twice_checks_out_twice {| _yielded := true |} (Script.boot w)
            (st1 := after (Script.boot w) w [EvCheckOut; EvUnstash 3%nat "aggregate"])
            _ _); reflexivity.
Defined.

(** ** Starting and stopping the pool *)

Section LifecyclePaths.
Context {W : Type} {C : Collaborators W}.

(** On a node that is not standalone, [startFLECrud] stores a new pool
    in the global, whatever it held, and starts it. *)
Lemma startFLECrud_replicated (st : State W) :
  getReplicationMode (world st) <> modeNone ->
  startFLECrud st =
    (Returned tt,
     {| world := ThreadPool_startup {| pool_options := getThreadPoolOptions |} (world st);
        _fleCrudthreadPool := Some {| pool_options := getThreadPoolOptions |};
        trace := trace st ++ [EvGetReplicationMode;
                              EvPoolStartup {| pool_options := getThreadPoolOptions |}] |}).
Proof.
  intros Hm. unfold startFLECrud.
  rewrite (bind_returned _ _ st (read_value EvGetReplicationMode _ st)).
  destruct (getReplicationMode (world st)); [congruence |].
  cbn. unfold Exec_bind. cbn. rewrite <- app_assoc. reflexivity.
Qed.

End LifecyclePaths.

(** X7.  [startFLECrud] followed by [stopFLECrud], from a state with no
    pool.  On a standalone node no pool is created and no thread pool
    call is made.  On any other node one pool named "FLECrud" with an
    unlimited thread count is created, started and then shut down, and
    the global still points to it afterwards. *)
Theorem startFLECrud_then_stopFLECrud
  {W : Type} {C : Collaborators W} (st : State W) :
  _fleCrudthreadPool st = None ->
  (getReplicationMode (world st) = modeNone ->
   (startFLECrud ;; stopFLECrud) st =
     (Returned tt, after st (world st) [EvGetReplicationMode]))
  /\ (getReplicationMode (world st) <> modeNone ->
      let pool := {| pool_options :=
                       {| poolName := "FLECrud"; maxThreads := kUnlimited |} |} in
      (startFLECrud ;; stopFLECrud) st =
        (Returned tt,
         {| world := ThreadPool_shutdown pool (ThreadPool_startup pool (world st));
            _fleCrudthreadPool := Some pool;
            trace := trace st ++ [EvGetReplicationMode;
                                  EvPoolStartup pool; EvPoolShutdown pool] |})).
Proof.
  intros Hp. split; intros Hm.
  - rewrite (bind_returned _ _ st (startFLECrud_standalone st Hm)).
    apply stopFLECrud_not_started. exact Hp.
  - cbv zeta. rewrite (bind_returned _ _ st (startFLECrud_replicated st Hm)).
    erewrite stopFLECrud_started by reflexivity.
    unfold after. cbn. rewrite <- app_assoc. reflexivity.
Qed.

Lemma startFLECrud_then_stopFLECrud_witness :
  (startFLECrud ;; stopFLECrud) (Sim.boot Sim.standalone) =
    (Returned tt, after (Sim.boot Sim.standalone) Sim.standalone [EvGetReplicationMode])
  /\ (startFLECrud ;; stopFLECrud) (Sim.boot Sim.member) =
    (Returned tt,
     {| world := Sim.member;
        _fleCrudthreadPool := Some Sim.pool;
        trace := [EvGetReplicationMode; EvPoolStartup Sim.pool;
                  EvPoolShutdown Sim.pool] |}).
Proof.
  split.
  - refine (proj1 (startFLECrud_then_stopFLECrud (Sim.boot Sim.standalone) _) _);
      reflexivity.
  - rewrite (proj2 (startFLECrud_then_stopFLECrud (Sim.boot Sim.member) eq_refl));
      [reflexivity | discriminate].
Defined.

(** X8.  [stopFLECrud] does not reset the global: called twice on a
    started pool it shuts the same pool down twice. *)
Theorem stopFLECrud_twice
  {W : Type} {C : Collaborators W} (st : State W) (p : ThreadPool) :
  _fleCrudthreadPool st = Some p ->
  (stopFLECrud ;; stopFLECrud) st =
    (Returned tt,
     after st (ThreadPool_shutdown p (ThreadPool_shutdown p (world st)))
       [EvPoolShutdown p; EvPoolShutdown p]).
Proof.
  intros Hp.
  rewrite (bind_returned _ _ st (stopFLECrud_started st Hp)).
  rewrite (stopFLECrud_started (after st (ThreadPool_shutdown p (world st))
                                  [EvPoolShutdown p]) (p := p)) by exact Hp.
  rewrite after_after. reflexivity.
Qed.

Lemma stopFLECrud_twice_witness :
  (stopFLECrud ;; stopFLECrud) (Sim.busy 2) =
    (Returned tt,
     after (Sim.busy 2) (Sim.set_pool false 2 Sim.member)
       [EvPoolShutdown Sim.pool; EvPoolShutdown Sim.pool]).
Proof.
  rewrite (stopFLECrud_twice (Sim.busy 2) (p := Sim.pool)); reflexivity.
Defined.



(** ** More on the augmenter and the insert entry point *)

(** X10.  [setMongosFieldsInReply] always returns normally, never touches
    the count [n] of the reply, the collaborators or the pool pointer; on
    a node whose mode is not [modeNone] the reply it returns has both
    fields set, and on a [modeNone] node it returns the reply it got. *)
Theorem setMongosFieldsInReply_post
  {W : Type} {C : Collaborators W} (r : WriteCommandReplyBase) (st : State W) :
  exists r' st',
    setMongosFieldsInReply r st = (Returned r', st')
    /\ reply_n r' = reply_n r
    /\ world st' = world st
    /\ _fleCrudthreadPool st' = _fleCrudthreadPool st
    /\ (getReplicationMode (world st) <> modeNone -> both_set r' = true)
    /\ (getReplicationMode (world st) = modeNone -> r' = r).
Proof.
  destruct (both_set r) eqn:Hb; [| destruct (getReplicationMode (world st)) eqn:Hm].
  - exists r, st. rewrite (augment_both_set r st Hb). auto 10.
  - eexists _, _. rewrite (augment_standalone r st Hb Hm).
    repeat split; solve [reflexivity | congruence].
  - eexists _, _. rewrite (augment_replicated r st Hb) by congruence.
    repeat split; solve [reflexivity | discriminate].
Qed.

Lemma setMongosFieldsInReply_post_witness :
  let bare := {| reply_n := 1; reply_opTime := None; reply_electionId := None |} in
  exists r',
    fst (setMongosFieldsInReply bare (Sim.boot Sim.member)) = Returned r'
    /\ reply_n r' = 1
    /\ both_set r' = true.
Proof.
  intros bare.
  destruct (setMongosFieldsInReply_post bare (Sim.boot Sim.member))
    as (r' & st' & Heq & Hn & _ & _ & Hset & _).
  exists r'. rewrite Heq. split; [reflexivity | split].
  - exact Hn.
  - apply Hset. discriminate.
Defined.

Section InsertPaths.
Context {W : Type} {C : Collaborators W}.

(** The reply after augmentation on a node in state [w]. *)
Lemma augment_value r (st : State W) :
  getReplicationMode (world st) <> modeNone ->
  setMongosFieldsInReply r st =
    (Returned (if both_set r then r
               else {| reply_n := reply_n r;
                       reply_opTime := Some (getLastOp (world st));
                       reply_electionId := Some (getElectionId (world st)) |}),
     after st (world st)
       (if both_set r then []
        else [EvGetReplicationMode; EvGetLastOp; EvSetOpTime;
              EvGetElectionId; EvSetElectionId])).
Proof.
  intros Hm. destruct (both_set r) eqn:Hb.
  - rewrite (augment_both_set r st Hb). unfold after. rewrite app_nil_r.
    destruct st; reflexivity.
  - apply augment_replicated; assumption.
Qed.

End InsertPaths.

(** X11.  A processed insert.  When [processInsert] reports [kProcessed]
    on a replica-set member, [processFLEInsert] returns [kProcessed] and a
    reply that is the one [processInsert] produced, completed by the
    augmenter: both replication fields are set (kept if both were set,
    else taken from the node), and nothing of what the caller's reply
    object held before survives. *)
Theorem processFLEInsert_processed
  {W : Type} {C : Collaborators W} (req : InsertCommandRequest)
  (reply : InsertCommandReply) (b : WriteCommandReplyBase) (st : State W) (w' : W) :
  getReplicationMode (world st) = modeReplSet ->
  processInsert req (getTransactionWithRetriesForMongoD (_fleCrudthreadPool st))
    (world st) = (Returned (kProcessed, {| getWriteCommandReplyBase := b |}), w') ->
  getReplicationMode w' <> modeNone ->
  let b' := if both_set b then b
            else {| reply_n := reply_n b;
                    reply_opTime := Some (getLastOp w');
                    reply_electionId := Some (getElectionId w') |} in
  processFLEInsert req reply st =
    (Returned (kProcessed, {| getWriteCommandReplyBase := b' |}),
     after st w'
       ([EvGetReplicationMode; EvProcessInsert; EvAssignReply] ++
        if both_set b then []
        else [EvGetReplicationMode; EvGetLastOp; EvSetOpTime;
              EvGetElectionId; EvSetElectionId]))
  /\ both_set b' = true.
Proof.
  intros Hm Hr Hm' b'. split.
  - rewrite (processFLEInsert_calls_processInsert req reply st Hm Hr).
    cbn [getWriteCommandReplyBase].
    erewrite bind_returned by (apply augment_value; exact Hm').
    cbn [world after]. rewrite after_after. reflexivity.
  - subst b'. destruct (both_set b) eqn:Hb; [exact Hb | reflexivity].
Qed.

Lemma processFLEInsert_processed_witness :
  let w := Script.member Script.ok Script.ok Script.ok Script.ok
             (Returned (kProcessed, Script.inserted)) in
  let stale := {| getWriteCommandReplyBase :=
                    {| reply_n := 9;
                       reply_opTime := Some {| op_timestamp := 1; op_term := 1 |};
                       reply_electionId := Some 8 |} |} in
  fst (processFLEInsert {| request_documents := [1] |} stale (Script.boot w)) =
    Returned (kProcessed,
              {| getWriteCommandReplyBase :=
                   {| reply_n := 1;
                      reply_opTime := Some {| op_timestamp := 100; op_term := 2 |};
                      reply_electionId := Some 42 |} |}).
Proof.
  intros w stale.
  destruct (processFLEInsert_processed {| request_documents := [1] |} stale
              (b := getWriteCommandReplyBase Script.inserted)
              (Script.boot w) (w' := w)) as [H _];
    [reflexivity | reflexivity | discriminate |].
  rewrite H. reflexivity.
Defined.

(** X12.  An exception thrown by [processInsert] leaves
    [processFLEInsert] unchanged; the caller's reply object is not
    assigned and the augmenter is not called. *)
Theorem processFLEInsert_processInsert_throws
  {W : Type} {C : Collaborators W} (req : InsertCommandRequest)
  (reply : InsertCommandReply) (st : State W) (e : DBException) (w' : W) :
  getReplicationMode (world st) = modeReplSet ->
  processInsert req (getTransactionWithRetriesForMongoD (_fleCrudthreadPool st))
    (world st) = (Threw e, w') ->
  processFLEInsert req reply st =
    (Threw e, after st w' [EvGetReplicationMode; EvProcessInsert]).
Proof.
  intros Hm Hr.
  rewrite (processFLEInsert_calls_processInsert req reply st Hm Hr). reflexivity.
Qed.

Lemma processFLEInsert_processInsert_throws_witness :
  let w := Script.member Script.ok Script.ok Script.ok Script.ok
             (Threw Script.interrupted) in
  processFLEInsert {| request_documents := [1] |} Script.emptyReply (Script.boot w) =
    (Threw Script.interrupted,
     after (Script.boot w) w [EvGetReplicationMode; EvProcessInsert]).
Proof.
  intros w.
  refine (processFLEInsert_processInsert_throws {| request_documents := [1] |}
            Script.emptyReply (Script.boot w) (e := Script.interrupted) (w' := w) _ _);
    reflexivity.
Defined.

Section InsertCalls.
Context {W : Type} {C : Collaborators W}.

(** The augmenter calls nothing but the three reads and the two setters. *)
Lemma augment_events r (st : State W) :
  exists r' evs,
    setMongosFieldsInReply r st = (Returned r', after st (world st) evs)
    /\ ~ In EvProcessInsert evs.
Proof.
  destruct (both_set r) eqn:Hb; [| destruct (getReplicationMode (world st)) eqn:Hm].
  - exists r, []. rewrite (augment_both_set r st Hb). split; [| intros []].
    unfold after. rewrite app_nil_r. destruct st; reflexivity.
  - eexists _, _. rewrite (augment_standalone r st Hb Hm). split; [reflexivity |].
    intros [H | []]; discriminate H.
  - eexists _, _. rewrite (augment_replicated r st Hb) by congruence.
    split; [reflexivity |].
    intros [H | [H | [H | [H | [H | []]]]]]; discriminate H.
Qed.

End InsertCalls.

(** X13.  On every path [processFLEInsert] first reads the replication
    mode and leaves the pool pointer as it was.  It calls [processInsert]
    exactly when the mode is [modeReplSet], and then exactly once, right
    after the read; with any other mode it makes no further call. *)
Theorem processFLEInsert_calls
  {W : Type} {C : Collaborators W} (req : InsertCommandRequest)
  (reply : InsertCommandReply) (st : State W) :
  exists evs,
    trace (snd (processFLEInsert req reply st))
    = (trace st ++ EvGetReplicationMode :: evs)%list
    /\ _fleCrudthreadPool (snd (processFLEInsert req reply st)) = _fleCrudthreadPool st
    /\ (getReplicationMode (world st) <> modeReplSet -> evs = [])
    /\ (getReplicationMode (world st) = modeReplSet ->
        exists evs', evs = EvProcessInsert :: evs' /\ ~ In EvProcessInsert evs').
Proof.
  destruct (getReplicationMode (world st)) eqn:Hm.
  - exists []. rewrite processFLEInsert_uassert by congruence.
    repeat split; try reflexivity. discriminate.
  - destruct (processInsert req (getTransactionWithRetriesForMongoD (_fleCrudthreadPool st))
                (world st)) as [r w'] eqn:Hr.
    rewrite (processFLEInsert_calls_processInsert req reply st Hm Hr).
    destruct r as [[[|] rr] | e].
    + destruct (augment_events (getWriteCommandReplyBase rr)
                  (after st w' [EvGetReplicationMode; EvProcessInsert; EvAssignReply]))
        as (r' & evs & Heq & Hnot).
      rewrite (bind_returned _ _ _ Heq). cbn [ret Monad_Exec Exec_ret snd].
      rewrite after_after.
      exists (EvProcessInsert :: EvAssignReply :: evs).
      repeat split; try reflexivity; try congruence.
      intros _. exists (EvAssignReply :: evs). split; [reflexivity |].
      intros [H | H]; [discriminate H | exact (Hnot H)].
    + exists [EvProcessInsert]. repeat split; try reflexivity; try congruence.
      intros _. exists []. split; [reflexivity | intros []].
    + exists [EvProcessInsert]. repeat split; try reflexivity; try congruence.
      intros _. exists []. split; [reflexivity | intros []].
Qed.

Lemma processFLEInsert_calls_witness :
  let w := Script.member Script.ok Script.ok Script.ok Script.ok
             (Returned (kProcessed, Script.inserted)) in
  exists evs,
    trace (snd (processFLEInsert {| request_documents := [1] |} Script.emptyReply
                  (Script.boot w)))
    = (trace (Script.boot w) ++ EvGetReplicationMode :: evs)%list
    /\ exists evs', evs = EvProcessInsert :: evs' /\ ~ In EvProcessInsert evs'.
Proof.
  intros w.
  destruct (processFLEInsert_calls {| request_documents := [1] |} Script.emptyReply
              (Script.boot w)) as (evs & Ht & _ & _ & Hin).
  exists evs. split; [exact Ht | apply Hin; reflexivity].
Defined.


